(** * Ticket authentication of the WAMP router session

    A shallow embedding of
    [examples/twisted/wamp/authentication/ticket/server.py]: the fake user
    database [UserDb], the value object [PendingAuth] and the two callbacks
    [onHello] and [onAuthenticate] of [MyRouterSession], followed by the
    properties of the handshake.

    Python objects are mutated in place, so every method is a computation
    over the state it can reach, in a state-and-exception monad [Py]. An
    instance attribute exists from its first assignment on, and reading it
    earlier raises. Printing to stdout is not modelled.

    The second part embeds [HelloServerProtocol] of
    [examples/twisted/websocket/wrapping/server_endpoint.py], whose whole
    behaviour is what it writes to its transport and what it prints; there
    the strings handed to [print] are part of the state. *)

From stdpp Require Import base option list strings gmap fin_maps.

(** ** Python values, exceptions and the monad of methods *)

(** A value that is either [None] or a [str]: what the user database keeps
    for a ticket and for a role, and what [dict.get] defaults to. *)
Abbreviation pyval := (option string).

(** Truth value of a [None]-or-[str] object: [None] and the empty string are
    false, every other string is true. *)
Definition truthy (v : pyval) : bool :=
  match v with
  | None => false
  | Some s => negb (bool_decide (s = ""))
  end.

(** Truth value of a [None]-or-[list] object. *)
Definition truthy_seq {A} (v : option (list A)) : bool :=
  match v with
  | None | Some [] => false
  | Some (_ :: _) => true
  end.

Inductive exn : Type :=
| KeyError (key : string)
| AttributeError (name : string).

Inductive result (A : Type) : Type :=
| Ok (a : A)
| Raise (e : exn).
Arguments Ok {A} a.
Arguments Raise {A} e.

(** A method running on a state [S]: it ends with a value or with a raised
    exception, and in both cases with the state as mutated so far. *)
Definition Py (S A : Type) : Type := S → result A * S.

#[global] Instance Py_ret {S} : MRet (Py S) :=
  λ A (a : A) (s : S), (Ok a, s).

#[global] Instance Py_bind {S} : MBind (Py S) :=
  λ A B (k : A → Py S B) (m : Py S A) (s : S),
    match m s with
    | (Ok a, s') => k a s'
    | (Raise e, s') => (Raise e, s')
    end.

Definition raise {S A} (e : exn) : Py S A := λ s, (Raise e, s).
Definition get_state {S} : Py S S := λ s, (Ok s, s).
Definition modify {S} (f : S → S) : Py S () := λ s, (Ok (), f s).
Definition of_result {S A} (r : result A) : Py S A := λ s, (r, s).

(** ** Dictionaries *)

(** [d[key]]: raises [KeyError] on a missing key. *)
Definition dict_getitem {V} (d : gmap string V) (key : string) : result V :=
  match d !! key with
  | Some v => Ok v
  | None => Raise (KeyError key)
  end.

(** [d.get(key, dflt)]: never raises. *)
Definition dict_get {V} (d : gmap string V) (key : string) (dflt : V) : V :=
  default dflt (d !! key).

(** ** Instance attributes *)

(** An attribute of an object: it is not there until it is first assigned. *)
Inductive attribute (A : Type) : Type :=
| Unassigned
| Assigned (value : A).
Arguments Unassigned {A}.
Arguments Assigned {A} value.

(** Reading [obj.name]: raises [AttributeError] while nothing has assigned
    the attribute. *)
Definition getattr {A} (name : string) (a : attribute A) : result A :=
  match a with
  | Assigned value => Ok value
  | Unassigned => Raise (AttributeError name)
  end.

(** ** Deferreds *)

(** A Deferred that has already fired, as [defer.succeed] and [defer.fail]
    build them. *)
Inductive Deferred (A : Type) : Type :=
| succeed (a : A)
| fail (e : exn).
Arguments succeed {A} a.
Arguments fail {A} e.

(** [yield d] inside [@defer.inlineCallbacks]: a fired Deferred resumes the
    generator at once, with its result or by raising its failure. *)
Definition yield {S A} (d : Deferred A) : Py S A :=
  match d with
  | succeed a => mret a
  | fail e => raise e
  end.

(** ** [class UserDb] *)

Module UserDb.

Record t : Type := mk { _tickets : gmap string (pyval * pyval) }.

Definition __init__ : t := {| _tickets := ∅ |}.

Definition add (authid : string) (authrole ticket : pyval)
  : Py t (pyval * pyval) :=
  modify (λ self, {| _tickets := <[authid := (ticket, authrole)]> (_tickets self) |});;
  self ← get_state;
  of_result (dict_getitem (_tickets self) authid).

Definition get (authid : string) : Py t (Deferred (pyval * pyval)) :=
  self ← get_state;
  mret (succeed (dict_get (_tickets self) authid (None, None))).

End UserDb.

(** ** [class PendingAuth] *)

Module PendingAuth.

Record t : Type := __init__ {
  signature : pyval;
  authid : string;
  authrole : pyval;
  authmethod : string;
  authprovider : string
}.

End PendingAuth.

(** ** [autobahn.wamp.types] *)

Module types.

(** Modelled from the spec: the class [HelloDetails] of [autobahn.wamp.types],
    of which [onHello] reads the two attributes [authmethods] (an ordered
    sequence of strings, or [None] when the client offers none) and [authid]. *)
Record HelloDetails : Type := mkHelloDetails {
  authmethods : option (list string);
  authid : string
}.

(** Modelled from the spec: the classes [Challenge], [Accept] and [Deny] of
    [autobahn.wamp.types], the three decisions a callback hands back to the
    router: [Challenge(method)], [Accept(authid, authrole, authmethod,
    authprovider)] and [Deny(reason?)]; [types.Deny()] gives no reason. *)
Inductive decision : Type :=
| Challenge (method : string)
| Accept (authid : string) (authrole : pyval) (authmethod authprovider : string)
| Deny (reason : option string).

End types.

(** ** [class MyRouterSession] *)

Module MyRouterSession.

(** What a callback of one session reaches: the user database of its
    factory, its own attribute [_pending_auth], and the calls of
    [UserDb.get] made so far, latest first, as a test double of the
    database records them. The class has no [__init__]: [_pending_auth] is
    assigned by [onHello] only, to [None] or to a [PendingAuth], and a new
    session does not have it. *)
Record t : Type := mk {
  factory_userdb : UserDb.t;
  _pending_auth : attribute (option PendingAuth.t);
  get_calls : list string
}.

(** [self._pending_auth = p] *)
Definition set_pending_auth (p : option PendingAuth.t) : Py t () :=
  modify (λ self, {| factory_userdb := factory_userdb self;
                     _pending_auth := Assigned p;
                     get_calls := get_calls self |}).

(** [self.factory.userdb.get(authid)]: the call is recorded, then
    [UserDb.get] runs on the database of the factory. *)
Definition userdb_get (authid : string) : Py t (Deferred (pyval * pyval)) :=
  λ self,
    let '(r, db) := UserDb.get authid (factory_userdb self) in
    (r, {| factory_userdb := db;
           _pending_auth := _pending_auth self;
           get_calls := authid :: get_calls self |}).

(** The [for] loop of [onHello]. [Some d] stands for [defer.returnValue(d)]
    leaving the generator from inside the loop, [None] for the loop running
    to its end. *)
Fixpoint onHello_for (details : types.HelloDetails) (authmethods : list string)
  : Py t (option types.decision) :=
  match authmethods with
  | [] => mret None
  | authmethod :: rest =>
      if bool_decide (authmethod = "ticket") then
        d ← userdb_get (types.authid details);
        '(ticket, authrole) ← yield d;
        if truthy ticket then
          set_pending_auth
            (Some (PendingAuth.__init__ ticket (types.authid details) authrole
                     authmethod "userdb"));;
          mret (Some (types.Challenge "ticket"))
        else onHello_for details rest
      else onHello_for details rest
  end.

Definition onHello (realm : string) (details : types.HelloDetails)
  : Py t types.decision :=
  set_pending_auth None;;
  r ← (if truthy_seq (types.authmethods details)
       then onHello_for details (default [] (types.authmethods details))
       else mret None);
  match r with
  | Some d => mret d
  | None => mret (types.Deny None)
  end.

Definition onAuthenticate (signature : string) (extra : gmap string string)
  : Py t types.decision :=
  self ← get_state;
  pending_auth ← of_result (getattr "_pending_auth" (_pending_auth self));
  match pending_auth with
  | Some pending =>
      if bool_decide (Some signature = PendingAuth.signature pending) then
        mret (types.Accept (PendingAuth.authid pending)
                           (PendingAuth.authrole pending)
                           (PendingAuth.authmethod pending)
                           (PendingAuth.authprovider pending))
      else mret (types.Deny None)
  | None => mret (types.Deny None)
  end.

End MyRouterSession.

(** The user database of the [__main__] block. *)
Definition main_userdb : UserDb.t :=
  ((UserDb.add "peter" (Some "user") (Some "magic_secret_1");;
    UserDb.add "joe" (Some "user") (Some "magic_secret_2"))
     UserDb.__init__).2.

(** A new session of the [__main__] router, before its first message:
    nothing has assigned [_pending_auth] yet. *)
Definition main_session : MyRouterSession.t :=
  MyRouterSession.mk main_userdb Unassigned [].

(** A hello offering the one method ["ticket"] for [authid]. *)
Definition ticket_hello (authid : string) : types.HelloDetails :=
  types.mkHelloDetails (Some ["ticket"]) authid.

(** A hello of "peter" that offers two methods, neither of them "ticket". *)
Definition other_methods_hello : types.HelloDetails :=
  types.mkHelloDetails (Some ["cookie"; "wampcra"]) "peter".

(** The session of "peter" once challenged: it holds a pending record. *)
Definition challenged_session : MyRouterSession.t :=
  (MyRouterSession.onHello "realm1" (ticket_hello "peter") main_session).2.

(** ** Sequences of calls *)

(** The two messages of a client for which the router fires a callback of
    [MyRouterSession]. *)
Inductive message : Type :=
| Hello (realm : string) (details : types.HelloDetails)
| Authenticate (signature : string) (extra : gmap string string).

Definition on_message (m : message) : Py MyRouterSession.t types.decision :=
  match m with
  | Hello realm details => MyRouterSession.onHello realm details
  | Authenticate signature extra =>
      MyRouterSession.onAuthenticate signature extra
  end.

(** The callbacks fired for the messages of one session, one after the
    other. The outcome of each callback is recorded, the decision it returns
    or the exception it raises; a callback that raises leaves the session as
    it had mutated it, and the next callback finds it so. A router that stops
    at the first exception sees a prefix of these outcomes. *)
Fixpoint on_messages (ms : list message) (self : MyRouterSession.t)
  : list (result types.decision) * MyRouterSession.t :=
  match ms with
  | [] => ([], self)
  | m :: rest =>
      let '(r, self1) := on_message m self in
      let '(rs, self2) := on_messages rest self1 in
      (r :: rs, self2)
  end.

(** A method of [UserDb] called on [self.factory.userdb] from outside the
    callbacks, as the [__main__] block calls [add]. *)
Definition on_userdb {A} (m : Py UserDb.t A) : Py MyRouterSession.t A :=
  λ self,
    let '(r, db) := m (MyRouterSession.factory_userdb self) in
    (r, MyRouterSession.mk db (MyRouterSession._pending_auth self)
          (MyRouterSession.get_calls self)).

(** [userdb.add(authid=.., authrole=.., ticket=..)] for each entry of a
    list, in order, as the [__main__] block does for its two users. *)
Fixpoint add_all (entries : list (string * pyval * pyval)) : Py UserDb.t () :=
  match entries with
  | [] => mret ()
  | (authid, authrole, ticket) :: rest =>
      UserDb.add authid authrole ticket;;
      add_all rest
  end.

(** The pending record of a session, when it has one, agrees with the user
    database: it holds the ticket and the role stored for its authid, the
    ticket is true, the method is "ticket" and the provider "userdb". *)
Definition pending_consistent (self : MyRouterSession.t) : Prop :=
  match MyRouterSession._pending_auth self with
  | Unassigned | Assigned None => True
  | Assigned (Some pending) =>
      UserDb._tickets (MyRouterSession.factory_userdb self)
        !! PendingAuth.authid pending
        = Some (PendingAuth.signature pending, PendingAuth.authrole pending) ∧
      truthy (PendingAuth.signature pending) = true ∧
      PendingAuth.authmethod pending = "ticket" ∧
      PendingAuth.authprovider pending = "userdb"
  end.

(** ** [class HelloServerProtocol] *)

Module HelloServerProtocol.

(** What the protocol acts on: the strings handed to [self.transport.write]
    and the strings handed to [print], one entry for each call, both oldest
    first. The text that reaches the terminal, where the calls run together,
    is not modelled. *)
Record t : Type := mk {
  transport : list string;
  stdout : list string
}.

Definition print (line : string) : Py t () :=
  modify (λ self, {| transport := transport self;
                     stdout := stdout self ++ [line] |}).

Definition transport_write (data : string) : Py t () :=
  modify (λ self, {| transport := transport self ++ [data];
                     stdout := stdout self |}).

Definition connectionMade : Py t () :=
  print "connectionMade";;
  transport_write "how are you?".

(** [data] is a [str], as the [str] written by [connectionMade] is, and
    ["{}".format(data)] is then [data] itself. *)
Definition dataReceived (data : string) : Py t () :=
  print ("dataReceived: " +:+ data).

(** A connection being made and then receiving the chunks of [chunks]. *)
Fixpoint dataReceived_all (chunks : list string) : Py t () :=
  match chunks with
  | [] => mret ()
  | data :: rest => dataReceived data;; dataReceived_all rest
  end.

Definition connection (chunks : list string) : Py t () :=
  connectionMade;; dataReceived_all chunks.

End HelloServerProtocol.

(** ** Properties of the user database *)

Lemma UserDb_add_run authid authrole ticket (db : UserDb.t) :
  UserDb.add authid authrole ticket db =
    (Ok (ticket, authrole),
     UserDb.mk (<[authid := (ticket, authrole)]> (UserDb._tickets db))).
Proof.
  unfold UserDb.add, mbind, Py_bind, modify, get_state, of_result, dict_getitem.
  cbn. by rewrite lookup_insert_eq.
Qed.

Lemma UserDb_get_run authid (db : UserDb.t) :
  UserDb.get authid db =
    (Ok (succeed (default (None, None) (UserDb._tickets db !! authid))), db).
Proof. reflexivity. Qed.

(** ** Running the callbacks *)

Import MyRouterSession.

Ltac py_unfold :=
  unfold mbind, mret, Py_bind, Py_ret, raise, get_state, modify, of_result,
    yield in *.

(** The pair that [UserDb.get] hands to [onHello] for [authid]. *)
Lemma userdb_get_run authid (self : MyRouterSession.t) :
  userdb_get authid self =
    (Ok (succeed (default (None, None)
                    (UserDb._tickets (factory_userdb self) !! authid))),
     mk (factory_userdb self) (_pending_auth self) (authid :: get_calls self)).
Proof. reflexivity. Qed.

Lemma onHello_for_cons details authmethod rest (self : MyRouterSession.t) :
  onHello_for details (authmethod :: rest) self =
    if bool_decide (authmethod = "ticket") then
      let tr := default (None, None)
                  (UserDb._tickets (factory_userdb self) !! types.authid details) in
      if truthy tr.1 then
        (Ok (Some (types.Challenge "ticket")),
         mk (factory_userdb self)
            (Assigned (Some (PendingAuth.__init__ tr.1 (types.authid details) tr.2
                     authmethod "userdb")))
            (types.authid details :: get_calls self))
      else
        onHello_for details rest
          (mk (factory_userdb self) (_pending_auth self)
              (types.authid details :: get_calls self))
    else onHello_for details rest self.
Proof.
  cbn [onHello_for]. case_bool_decide; [|done].
  unfold mbind at 1, Py_bind at 1. rewrite userdb_get_run.
  destruct (default _ _) as [ticket authrole]; cbn.
  unfold set_pending_auth; py_unfold; cbn.
  by destruct (truthy ticket).
Qed.

(** A list that does not offer "ticket" is walked without any effect. *)
Lemma onHello_for_no_ticket details l (self : MyRouterSession.t) :
  "ticket" ∉ l → onHello_for details l self = (Ok None, self).
Proof.
  induction l as [|authmethod rest IH]; intros Hl; [done|].
  rewrite onHello_for_cons. apply not_elem_of_cons in Hl as [Hne Hrest].
  rewrite bool_decide_eq_false_2 by congruence. by apply IH.
Qed.

(** With a false ticket the loop looks the user up once for each offered
    "ticket" and runs to its end. *)
Lemma onHello_for_falsy details l (self : MyRouterSession.t) :
  truthy (default (None, None)
            (UserDb._tickets (factory_userdb self) !! types.authid details)).1
    = false →
  onHello_for details l self =
    (Ok None,
     mk (factory_userdb self) (_pending_auth self)
        (replicate (length (filter (λ m, m = "ticket") l)) (types.authid details)
           ++ get_calls self)).
Proof.
  revert self. induction l as [|authmethod rest IH]; intros self Hf.
  - by destruct self.
  - rewrite onHello_for_cons. cbn zeta. rewrite Hf.
    case_bool_decide as Hm.
    + rewrite IH by done. cbn [factory_userdb _pending_auth get_calls].
      rewrite filter_cons_True by done. cbn [length replicate].
      do 2 f_equal. clear. induction (length _) as [|n IHn]; [done|].
      cbn. by rewrite IHn.
    + rewrite filter_cons_False by done. by apply IH.
Qed.

(** With a true ticket the first offered "ticket" ends the loop. *)
Lemma onHello_for_truthy details l (self : MyRouterSession.t) :
  let tr := default (None, None)
              (UserDb._tickets (factory_userdb self) !! types.authid details) in
  truthy tr.1 = true → "ticket" ∈ l →
  onHello_for details l self =
    (Ok (Some (types.Challenge "ticket")),
     mk (factory_userdb self)
        (Assigned (Some (PendingAuth.__init__ tr.1 (types.authid details) tr.2
                 "ticket" "userdb")))
        (types.authid details :: get_calls self)).
Proof.
  intros tr Ht. induction l as [|authmethod rest IH]; intros Hl.
  - by apply not_elem_of_nil in Hl.
  - rewrite onHello_for_cons. cbn zeta. fold tr. rewrite Ht.
    case_bool_decide as Hm; [by subst|].
    apply elem_of_cons in Hl as [?|Hl]; [congruence|]. by apply IH.
Qed.

(** [onHello] is its first assignment followed by the loop over the offered
    methods; a missing or empty list is a loop over nothing. *)
Lemma onHello_run realm details (self : MyRouterSession.t) :
  onHello realm details self =
    match onHello_for details (default [] (types.authmethods details))
            (mk (factory_userdb self) (Assigned None) (get_calls self)) with
    | (Ok (Some d), self') => (Ok d, self')
    | (Ok None, self') => (Ok (types.Deny None), self')
    | (Raise e, self') => (Raise e, self')
    end.
Proof.
  unfold onHello, set_pending_auth. py_unfold.
  destruct (types.authmethods details) as [[|authmethod rest]|];
    cbn [truthy_seq default]; try done.
  by destruct (onHello_for details _ _) as [[[d|]|e] self'].
Qed.

Lemma onHello_no_ticket realm details (self : MyRouterSession.t) :
  (∀ l, types.authmethods details = Some l → "ticket" ∉ l) →
  onHello realm details self =
    (Ok (types.Deny None), mk (factory_userdb self) (Assigned None) (get_calls self)).
Proof.
  intros Hl. rewrite onHello_run, onHello_for_no_ticket; [done|].
  destruct (types.authmethods details) as [l|]; cbn;
    [by apply Hl | apply not_elem_of_nil].
Qed.

Lemma onHello_falsy realm details (self : MyRouterSession.t) :
  truthy (default (None, None)
            (UserDb._tickets (factory_userdb self) !! types.authid details)).1
    = false →
  onHello realm details self =
    (Ok (types.Deny None),
     mk (factory_userdb self) (Assigned None)
        (replicate
           (length (filter (λ m, m = "ticket")
                      (default [] (types.authmethods details))))
           (types.authid details) ++ get_calls self)).
Proof. intros Hf. by rewrite onHello_run, onHello_for_falsy. Qed.

Lemma onHello_truthy realm details (self : MyRouterSession.t) :
  let tr := default (None, None)
              (UserDb._tickets (factory_userdb self) !! types.authid details) in
  truthy tr.1 = true →
  "ticket" ∈ default [] (types.authmethods details) →
  onHello realm details self =
    (Ok (types.Challenge "ticket"),
     mk (factory_userdb self)
        (Assigned (Some (PendingAuth.__init__ tr.1 (types.authid details) tr.2
                 "ticket" "userdb")))
        (types.authid details :: get_calls self)).
Proof.
  intros tr Ht Hl. rewrite onHello_run.
  by rewrite (onHello_for_truthy details _ (mk _ (Assigned None) _) Ht Hl).
Qed.

(** [onHello] always returns a decision, never raises, and leaves the user
    database as it found it. The decision is a [Deny] without a pending
    record, or the [Challenge] with one. *)
Lemma onHello_outcome realm details (self : MyRouterSession.t) :
  ∃ d self',
    onHello realm details self = (Ok d, self') ∧
    factory_userdb self' = factory_userdb self ∧
    ((d = types.Deny None ∧ _pending_auth self' = Assigned None) ∨
     (d = types.Challenge "ticket" ∧
      ∃ pending, _pending_auth self' = Assigned (Some pending))).
Proof.
  destruct (truthy (default (None, None)
    (UserDb._tickets (factory_userdb self) !! types.authid details)).1) eqn:Ht.
  - destruct (decide ("ticket" ∈ default [] (types.authmethods details)))
      as [Hl|Hl].
    + eexists _, _. rewrite (onHello_truthy _ _ _ Ht Hl). cbn. eauto 6.
    + eexists _, _. rewrite onHello_no_ticket; [cbn; eauto 6|].
      intros l Heq. by rewrite Heq in Hl.
  - eexists _, _. rewrite (onHello_falsy _ _ _ Ht). cbn. eauto 6.
Qed.

(** [onAuthenticate] reads the session and changes nothing; reading
    [_pending_auth] is what raises on a session that never had it assigned. *)
Lemma onAuthenticate_run signature extra (self : MyRouterSession.t) :
  onAuthenticate signature extra self =
    (match _pending_auth self with
     | Unassigned => Raise (AttributeError "_pending_auth")
     | Assigned None => Ok (types.Deny None)
     | Assigned (Some pending) =>
         Ok (if bool_decide (Some signature = PendingAuth.signature pending)
             then types.Accept (PendingAuth.authid pending)
                    (PendingAuth.authrole pending)
                    (PendingAuth.authmethod pending)
                    (PendingAuth.authprovider pending)
             else types.Deny None)
     end, self).
Proof.
  unfold onAuthenticate, getattr. py_unfold. cbn.
  destruct (_pending_auth self) as [|[pending|]]; [done| |done].
  by case_bool_decide.
Qed.

(** ** The user database: [add] and [get] *)

(** C6: after [add(authid, role, secret)] a lookup of [authid] returns
    exactly the pair (secret, role); a second [add] for the same [authid]
    raises nothing and overwrites, so the lookup then returns the pair
    written last; the entries of every other authid are unchanged. *)
Theorem UserDb_add_then_get
    (db : UserDb.t) authid authrole ticket authrole2 ticket2 other :
  other ≠ authid →
  let db1 := (UserDb.add authid authrole ticket db).2 in
  let db2 := (UserDb.add authid authrole2 ticket2 db1).2 in
  (UserDb.add authid authrole ticket db).1 = Ok (ticket, authrole) ∧
  UserDb.get authid db1 = (Ok (succeed (ticket, authrole)), db1) ∧
  (UserDb.add authid authrole2 ticket2 db1).1 = Ok (ticket2, authrole2) ∧
  UserDb.get authid db2 = (Ok (succeed (ticket2, authrole2)), db2) ∧
  UserDb._tickets db1 !! other = UserDb._tickets db !! other ∧
  UserDb._tickets db2 !! other = UserDb._tickets db !! other ∧
  (UserDb.get other db1).1 = (UserDb.get other db).1 ∧
  (UserDb.get other db2).1 = (UserDb.get other db).1.
Proof.
  intros Hne db1 db2. subst db1 db2. rewrite !UserDb_add_run.
  cbn [fst snd]. rewrite !UserDb_get_run. cbn [fst snd UserDb._tickets].
  rewrite !lookup_insert_eq, !lookup_insert_ne by done. by repeat split.
Qed.

Lemma UserDb_add_then_get_witness :
  "joe" ≠ "peter" ∧
  UserDb.get "peter"
    (UserDb.add "peter" (Some "admin") (Some "s2")
       (UserDb.add "peter" (Some "user") (Some "s1") main_userdb).2).2
  = (Ok (succeed (Some "s2", Some "admin")),
     (UserDb.add "peter" (Some "admin") (Some "s2")
       (UserDb.add "peter" (Some "user") (Some "s1") main_userdb).2).2).
Proof.
  assert (Hne : "joe" ≠ "peter") by discriminate.
  split; [exact Hne|].
  exact (proj1 (proj2 (proj2 (proj2
    (UserDb_add_then_get main_userdb "peter" (Some "user") (Some "s1")
       (Some "admin") (Some "s2") "joe" Hne))))).
Defined.

(** C7: for an authid without an entry, [get] succeeds: it raises nothing,
    the Deferred it returns has fired with a result and not with a failure,
    and that result is the pair (None, None). *)
Theorem UserDb_get_absent (db : UserDb.t) authid :
  UserDb._tickets db !! authid = None →
  UserDb.get authid db = (Ok (succeed (None, None)), db).
Proof. intros Habs. by rewrite UserDb_get_run, Habs. Qed.

Lemma UserDb_get_absent_witness :
  UserDb._tickets main_userdb !! "nobody" = None ∧
  UserDb.get "nobody" main_userdb = (Ok (succeed (None, None)), main_userdb).
Proof.
  assert (Habs : UserDb._tickets main_userdb !! "nobody" = None)
    by (vm_compute; reflexivity).
  split; [exact Habs|]. exact (UserDb_get_absent main_userdb "nobody" Habs).
Defined.

(** ** The handshake *)

(** C1: the claim fails on a new session. Nothing assigns [_pending_auth]
    before the first [onHello], so on a session on which [onHello] never ran
    there is no pending record, and [onAuthenticate], instead of returning
    the [Deny] of the claim, raises [AttributeError] when it reads the
    attribute; it leaves the session as it is. *)
Theorem onAuthenticate_unassigned_raises
    (self : MyRouterSession.t) signature extra :
  _pending_auth self = Unassigned →
  onAuthenticate signature extra self
    = (Raise (AttributeError "_pending_auth"), self) ∧
  (onAuthenticate signature extra self).1 ≠ Ok (types.Deny None).
Proof.
  intros Hun. rewrite onAuthenticate_run, Hun. by split.
Qed.

Lemma onAuthenticate_unassigned_raises_witness :
  _pending_auth main_session = Unassigned ∧
  onAuthenticate "magic_secret_1" ∅ main_session
    = (Raise (AttributeError "_pending_auth"), main_session).
Proof.
  split; [reflexivity|].
  exact (proj1 (onAuthenticate_unassigned_raises main_session
                  "magic_secret_1" ∅ eq_refl)).
Defined.

(** C2: for an authid without an entry in the user database, [onHello]
    with the methods ["ticket"] returns [Deny], hence no [Challenge], and
    the session is left without a pending record. *)
Theorem onHello_unknown_authid (self : MyRouterSession.t) realm authid :
  UserDb._tickets (factory_userdb self) !! authid = None →
  ∃ self',
    onHello realm (ticket_hello authid) self = (Ok (types.Deny None), self') ∧
    (∀ method,
        (onHello realm (ticket_hello authid) self).1
          ≠ Ok (types.Challenge method)) ∧
    _pending_auth self' = Assigned None.
Proof.
  intros Habs. eexists. rewrite onHello_falsy by (cbn; by rewrite Habs).
  by repeat split.
Qed.

Lemma onHello_unknown_authid_witness :
  UserDb._tickets (factory_userdb main_session) !! "nobody" = None ∧
  (onHello "realm1" (ticket_hello "nobody") main_session).1
    = Ok (types.Deny None).
Proof.
  assert (Habs : UserDb._tickets (factory_userdb main_session) !! "nobody"
                 = None) by (vm_compute; reflexivity).
  split; [exact Habs|].
  destruct (onHello_unknown_authid main_session "realm1" "nobody" Habs)
    as (self' & Hrun & _).
  by rewrite Hrun.
Defined.

(** C3: with a user database holding "peter" with the secret
    "magic_secret_1" and the role "user", the hello of "peter" offering
    ["ticket"] in "realm1" is answered by [Challenge("ticket")]; from there
    authenticating with "magic_secret_1" gives
    [Accept("peter", "user", "ticket", "userdb")] and authenticating with
    "wrong_guess" gives [Deny]. *)
Theorem scenario_peter (self : MyRouterSession.t) :
  UserDb._tickets (factory_userdb self) !! "peter"
    = Some (Some "magic_secret_1", Some "user") →
  ∃ self',
    onHello "realm1" (ticket_hello "peter") self
      = (Ok (types.Challenge "ticket"), self') ∧
    onAuthenticate "magic_secret_1" ∅ self'
      = (Ok (types.Accept "peter" (Some "user") "ticket" "userdb"), self') ∧
    onAuthenticate "wrong_guess" ∅ self' = (Ok (types.Deny None), self').
Proof.
  intros Hpeter. eexists.
  rewrite onHello_truthy;
    [|cbn; by rewrite Hpeter|cbn; apply list_elem_of_here].
  rewrite !onAuthenticate_run. cbn. by rewrite Hpeter.
Qed.

Lemma scenario_peter_witness :
  UserDb._tickets (factory_userdb main_session) !! "peter"
    = Some (Some "magic_secret_1", Some "user") ∧
  (onHello "realm1" (ticket_hello "peter") main_session).1
    = Ok (types.Challenge "ticket").
Proof.
  assert (Hpeter : UserDb._tickets (factory_userdb main_session) !! "peter"
                   = Some (Some "magic_secret_1", Some "user"))
    by (vm_compute; reflexivity).
  split; [exact Hpeter|].
  destruct (scenario_peter main_session Hpeter) as (self' & Hrun & _).
  by rewrite Hrun.
Defined.

(** C4, as the code has it: after a [Challenge] the session holds a pending
    record, and [onAuthenticate] leaves it in place, also when it accepts.
    Each of two calls in a row is therefore decided on its own: it returns
    the [Accept] of the pending record when its signature equals the
    expected secret and [Deny] when it differs, the second call like the
    first. *)
Theorem authenticate_twice_after_challenge
    (self self1 : MyRouterSession.t) realm details method :
  onHello realm details self = (Ok (types.Challenge method), self1) →
  ∃ pending,
    _pending_auth self1 = Assigned (Some pending) ∧
    ∀ sig1 sig2 extra1 extra2,
      let accept := types.Accept (PendingAuth.authid pending)
                      (PendingAuth.authrole pending)
                      (PendingAuth.authmethod pending)
                      (PendingAuth.authprovider pending) in
      ∃ d1 d2,
        onAuthenticate sig1 extra1 self1 = (Ok d1, self1) ∧
        onAuthenticate sig2 extra2 self1 = (Ok d2, self1) ∧
        (PendingAuth.signature pending = Some sig1 → d1 = accept) ∧
        (PendingAuth.signature pending ≠ Some sig1 → d1 = types.Deny None) ∧
        (PendingAuth.signature pending = Some sig2 → d2 = accept) ∧
        (PendingAuth.signature pending ≠ Some sig2 → d2 = types.Deny None).
Proof.
  intros Hrun.
  destruct (onHello_outcome realm details self)
    as (d & self' & Hrun' & _ & [[-> _]|[-> [pending Hp]]]);
    rewrite Hrun in Hrun'; injection Hrun' as Hd Hs; [done|]. subst self'.
  exists pending. split; [done|]. intros sig1 sig2 extra1 extra2 accept.
  eexists _, _. rewrite !onAuthenticate_run, Hp.
  split; [done|]. split; [done|].
  subst accept. repeat split; intros Hsig; case_bool_decide; congruence.
Qed.

Lemma authenticate_twice_after_challenge_witness :
  onHello "realm1" (ticket_hello "peter") main_session
    = (Ok (types.Challenge "ticket"),
       (onHello "realm1" (ticket_hello "peter") main_session).2) ∧
  ∃ pending,
    _pending_auth (onHello "realm1" (ticket_hello "peter") main_session).2
      = Assigned (Some pending).
Proof.
  assert (Hrun : onHello "realm1" (ticket_hello "peter") main_session
                 = (Ok (types.Challenge "ticket"),
                    (onHello "realm1" (ticket_hello "peter") main_session).2))
    by (vm_compute; reflexivity).
  split; [exact Hrun|].
  destruct (authenticate_twice_after_challenge _ _ _ _ _ Hrun)
    as (pending & Hp & _).
  by exists pending.
Defined.

(** C4, as the claim words it, fails: after the [Challenge] for "peter",
    authenticating twice with the right secret is accepted twice; the
    second call does not return [Deny]. *)
Lemma second_authenticate_accepts_again :
  let self1 := (onHello "realm1" (ticket_hello "peter") main_session).2 in
  let self2 := (onAuthenticate "magic_secret_1" ∅ self1).2 in
  (onHello "realm1" (ticket_hello "peter") main_session).1
    = Ok (types.Challenge "ticket") ∧
  (onAuthenticate "magic_secret_1" ∅ self1).1
    = Ok (types.Accept "peter" (Some "user") "ticket" "userdb") ∧
  (onAuthenticate "magic_secret_1" ∅ self2).1
    = Ok (types.Accept "peter" (Some "user") "ticket" "userdb") ∧
  (onAuthenticate "magic_secret_1" ∅ self2).1 ≠ Ok (types.Deny None).
Proof. vm_compute. by repeat split. Qed.

(** C5: when the offered methods are missing, empty or without "ticket",
    [onHello] returns [Deny], makes no call of [UserDb.get], and leaves the
    user database as it is. *)
Theorem onHello_without_ticket_method
    (self : MyRouterSession.t) realm details :
  "ticket" ∉ default [] (types.authmethods details) →
  ∃ self',
    onHello realm details self = (Ok (types.Deny None), self') ∧
    get_calls self' = get_calls self ∧
    factory_userdb self' = factory_userdb self.
Proof.
  intros Hl. eexists. rewrite onHello_no_ticket; [done|].
  intros l Heq. by rewrite Heq in Hl.
Qed.

Lemma onHello_without_ticket_method_witness :
  ("ticket" ∉ default [] (types.authmethods other_methods_hello)) ∧
  (∃ self',
    onHello "realm1" other_methods_hello main_session
      = (Ok (types.Deny None), self') ∧
    get_calls self' = [] ∧
    factory_userdb self' = main_userdb).
Proof.
  assert (Hl : "ticket" ∉ default [] (types.authmethods other_methods_hello)).
  { apply (bool_decide_unpack _). vm_compute. exact I. }
  split; [exact Hl|].
  exact (onHello_without_ticket_method main_session "realm1"
           other_methods_hello Hl).
Defined.

(** C8: the decision returned by [onHello] for an authid unknown to the user
    database and the decision returned by [onAuthenticate] for a signature
    that differs from the expected secret are the same value, a [Deny]
    without a reason. *)
Theorem deny_unknown_same_as_wrong_secret
    (self other : MyRouterSession.t) realm details pending signature extra :
  UserDb._tickets (factory_userdb self) !! types.authid details = None →
  _pending_auth other = Assigned (Some pending) →
  PendingAuth.signature pending ≠ Some signature →
  (onHello realm details self).1 = Ok (types.Deny None) ∧
  (onAuthenticate signature extra other).1 = Ok (types.Deny None) ∧
  (onHello realm details self).1 = (onAuthenticate signature extra other).1.
Proof.
  intros Habs Hp Hne.
  rewrite onHello_falsy by (by rewrite Habs).
  rewrite onAuthenticate_run, Hp. cbn [fst].
  by rewrite bool_decide_eq_false_2 by congruence.
Qed.

Lemma deny_unknown_same_as_wrong_secret_witness :
  (onHello "realm1" (ticket_hello "nobody") main_session).1
    = (onAuthenticate "wrong_guess" ∅ challenged_session).1.
Proof.
  refine (proj2 (proj2
    (deny_unknown_same_as_wrong_secret main_session challenged_session
       "realm1" (ticket_hello "nobody")
       (PendingAuth.__init__ (Some "magic_secret_1") "peter" (Some "user")
          "ticket" "userdb")
       "wrong_guess" ∅ _ _ _))).
  - vm_compute; reflexivity.
  - vm_compute; reflexivity.
  - discriminate.
Defined.

(** C9: for an authid added to the user database with a false ticket (the
    empty string, or None), [onHello] with the methods ["ticket"] returns
    [Deny] and leaves no pending record, as it does for a session whose user
    database has no entry for the authid: the entry is there and is looked
    up, and it is the truth value of its ticket that decides. *)
Theorem onHello_falsy_ticket
    (self : MyRouterSession.t) (db : UserDb.t) realm authid authrole ticket :
  factory_userdb self = (UserDb.add authid authrole ticket db).2 →
  truthy ticket = false →
  ∃ self',
    onHello realm (ticket_hello authid) self = (Ok (types.Deny None), self') ∧
    _pending_auth self' = Assigned None ∧
    UserDb._tickets (factory_userdb self) !! authid = Some (ticket, authrole) ∧
    ∀ absent : MyRouterSession.t,
      UserDb._tickets (factory_userdb absent) !! authid = None →
      (onHello realm (ticket_hello authid) absent).1
        = (onHello realm (ticket_hello authid) self).1 ∧
      _pending_auth (onHello realm (ticket_hello authid) absent).2
        = _pending_auth self'.
Proof.
  intros Hdb Hf. rewrite UserDb_add_run in Hdb. cbn [snd] in Hdb.
  assert (Hget : UserDb._tickets (factory_userdb self) !! authid
                 = Some (ticket, authrole))
    by (rewrite Hdb; apply lookup_insert_eq).
  eexists. rewrite onHello_falsy by (cbn; by rewrite Hget).
  split; [done|]. split; [done|]. split; [done|].
  intros absent Habs. by rewrite onHello_falsy by (cbn; by rewrite Habs).
Qed.

Lemma onHello_falsy_ticket_witness :
  truthy (Some "") = false ∧
  ∃ self',
    onHello "realm1" (ticket_hello "ghost")
      (mk (UserDb.add "ghost" (Some "user") (Some "") main_userdb).2
          Unassigned [])
    = (Ok (types.Deny None), self').
Proof.
  split; [reflexivity|].
  destruct (onHello_falsy_ticket
              (mk (UserDb.add "ghost" (Some "user") (Some "") main_userdb).2
                  Unassigned [])
              main_userdb "realm1" "ghost" (Some "user") (Some "")
              eq_refl eq_refl) as (self' & Hrun & _).
  by exists self'.
Defined.

(** C10: [onHello] starts by setting the pending record to none, so what it
    does never depends on a pending record left by an earlier hello; it
    always returns a decision; and when that decision is not a [Challenge]
    the session holds no pending record, so that [onAuthenticate] then
    returns [Deny] for every signature. *)
Theorem onHello_resets_pending (self : MyRouterSession.t) realm details :
  (∀ earlier : MyRouterSession.t,
      factory_userdb earlier = factory_userdb self →
      get_calls earlier = get_calls self →
      onHello realm details earlier = onHello realm details self) ∧
  ∃ d self',
    onHello realm details self = (Ok d, self') ∧
    ((∀ method, d ≠ types.Challenge method) →
     _pending_auth self' = Assigned None ∧
     ∀ signature extra,
       onAuthenticate signature extra self' = (Ok (types.Deny None), self')).
Proof.
  split.
  - intros earlier Hdb Hcalls. by rewrite !onHello_run, Hdb, Hcalls.
  - destruct (onHello_outcome realm details self)
      as (d & self' & Hrun & _ & [[-> Hp]|[-> _]]).
    + exists (types.Deny None), self'. split; [done|]. intros _.
      split; [done|]. intros signature extra.
      by rewrite onAuthenticate_run, Hp.
    + exists (types.Challenge "ticket"), self'. split; [done|].
      intros Hno. by destruct (Hno "ticket").
Qed.

Lemma onHello_resets_pending_witness :
  (∃ pending, _pending_auth challenged_session = Assigned (Some pending)) ∧
  onAuthenticate "magic_secret_1" ∅
    (onHello "realm1" (ticket_hello "nobody") challenged_session).2
  = (Ok (types.Deny None),
     (onHello "realm1" (ticket_hello "nobody") challenged_session).2).
Proof.
  split; [vm_compute; eauto|].
  destruct (onHello_resets_pending challenged_session "realm1"
              (ticket_hello "nobody")) as (_ & d & self' & Hrun & Hdeny).
  assert (Hd : (onHello "realm1" (ticket_hello "nobody") challenged_session).1
               = Ok (types.Deny None)) by (vm_compute; reflexivity).
  rewrite Hrun in Hd |- *. cbn [fst snd] in Hd |- *.
  injection Hd as ->. by apply Hdeny.
Defined.

(** ** More on [onHello] *)

(** A true first component of what [dict.get] hands back means the entry is
    there. *)
Lemma truthy_default_lookup (db : UserDb.t) authid :
  truthy (default (None, None) (UserDb._tickets db !! authid)).1 = true →
  UserDb._tickets db !! authid
    = Some (default (None, None) (UserDb._tickets db !! authid)).
Proof. by destruct (UserDb._tickets db !! authid). Qed.

Lemma truthy_Some ticket : truthy (Some ticket) = true ↔ ticket ≠ "".
Proof.
  unfold truthy. case_bool_decide; cbn; split; done.
Qed.

(** The two ways [onHello] can end. *)
Lemma onHello_cases realm details (self : MyRouterSession.t) :
  let tr := default (None, None)
              (UserDb._tickets (factory_userdb self) !! types.authid details) in
  let offered := default [] (types.authmethods details) in
  ("ticket" ∈ offered ∧ truthy tr.1 = true ∧
   onHello realm details self =
     (Ok (types.Challenge "ticket"),
      mk (factory_userdb self)
         (Assigned (Some (PendingAuth.__init__ tr.1 (types.authid details) tr.2
                  "ticket" "userdb")))
         (types.authid details :: get_calls self))) ∨
  (("ticket" ∉ offered ∨ truthy tr.1 = false) ∧
   ∃ calls,
     onHello realm details self =
       (Ok (types.Deny None), mk (factory_userdb self) (Assigned None) calls)).
Proof.
  intros tr offered.
  destruct (truthy tr.1) eqn:Ht.
  - destruct (decide ("ticket" ∈ offered)) as [Hl|Hl].
    + left. split; [done|]. split; [done|]. by apply onHello_truthy.
    + right. split; [by left|]. eexists. apply onHello_no_ticket.
      intros l Heq. subst offered. by rewrite Heq in Hl.
  - right. split; [by right|]. eexists. by apply onHello_falsy.
Qed.

(** X1: whatever the session, the realm and the details, [onHello] raises
    nothing and returns either [Deny] or [Challenge("ticket")], never an
    [Accept]; it leaves the user database as it found it. *)
Theorem onHello_never_accepts (self : MyRouterSession.t) realm details :
  ∃ d self',
    onHello realm details self = (Ok d, self') ∧
    factory_userdb self' = factory_userdb self ∧
    (d = types.Deny None ∨ d = types.Challenge "ticket") ∧
    (∀ authid authrole authmethod authprovider,
        d ≠ types.Accept authid authrole authmethod authprovider).
Proof.
  destruct (onHello_cases realm details self)
    as [(_ & _ & Hrun)|(_ & calls & Hrun)]; rewrite Hrun.
  - eexists _, _. split; [done|]. split; [done|]. split; [by right|done].
  - eexists _, _. split; [done|]. split; [done|]. split; [by left|done].
Qed.

(** X2: [onHello] returns the [Challenge] exactly when "ticket" is among the
    offered methods, wherever in the list, and the ticket stored for the
    authid is true; the pending record it then leaves holds that ticket, the
    authid of the hello, the stored role, "ticket" and "userdb". *)
Theorem onHello_challenge_iff (self : MyRouterSession.t) realm details :
  let tr := default (None, None)
              (UserDb._tickets (factory_userdb self) !! types.authid details) in
  ((onHello realm details self).1 = Ok (types.Challenge "ticket") ↔
   "ticket" ∈ default [] (types.authmethods details) ∧ truthy tr.1 = true) ∧
  ((onHello realm details self).1 = Ok (types.Challenge "ticket") →
   _pending_auth (onHello realm details self).2
     = Assigned (Some (PendingAuth.__init__ tr.1 (types.authid details) tr.2
                         "ticket" "userdb"))).
Proof.
  intros tr.
  destruct (onHello_cases realm details self)
    as [(Hl & Ht & Hrun)|(Hno & calls & Hrun)]; rewrite Hrun; cbn [fst snd].
  - split; [done|]. done.
  - split; [|done]. split; [done|]. intros [Hl Ht].
    destruct Hno as [Hno|Hno]; [done|]. fold tr in Hno. congruence.
Qed.

Lemma onHello_challenge_iff_witness :
  _pending_auth
    (onHello "realm1"
       (types.mkHelloDetails (Some ["wampcra"; "ticket"]) "joe")
       main_session).2
  = Assigned (Some (PendingAuth.__init__ (Some "magic_secret_2") "joe"
                      (Some "user") "ticket" "userdb")).
Proof.
  apply (proj2 (onHello_challenge_iff main_session "realm1"
           (types.mkHelloDetails (Some ["wampcra"; "ticket"]) "joe"))).
  vm_compute. reflexivity.
Defined.

(** X3: every call of [UserDb.get] that [onHello] makes is for the authid of
    the hello. With a true stored ticket and "ticket" offered it makes one
    call, however often "ticket" is offered; with a false or missing ticket
    it makes one call for each "ticket" in the offered list. *)
Theorem onHello_lookups (self : MyRouterSession.t) realm details :
  let tr := default (None, None)
              (UserDb._tickets (factory_userdb self) !! types.authid details) in
  let offered := default [] (types.authmethods details) in
  get_calls (onHello realm details self).2 =
    replicate
      (if truthy tr.1
       then (if bool_decide ("ticket" ∈ offered) then 1 else 0)
       else length (filter (λ m, m = "ticket") offered))
      (types.authid details)
    ++ get_calls self.
Proof.
  intros tr offered. destruct (truthy tr.1) eqn:Ht.
  - case_bool_decide as Hl.
    + by rewrite onHello_truthy.
    + rewrite onHello_no_ticket; [done|].
      intros l Heq. subst offered. by rewrite Heq in Hl.
  - by rewrite onHello_falsy.
Qed.

(** X4: for an authid whose stored ticket is a non-empty string, a hello
    that offers "ticket" among its methods is challenged; authenticating
    with the stored ticket is then accepted with the authid of the hello,
    the stored role, "ticket" and "userdb", and authenticating with any
    other signature is denied. *)
Theorem handshake_known_user
    (self : MyRouterSession.t) realm details ticket authrole :
  UserDb._tickets (factory_userdb self) !! types.authid details
    = Some (Some ticket, authrole) →
  ticket ≠ "" →
  "ticket" ∈ default [] (types.authmethods details) →
  ∃ self',
    onHello realm details self = (Ok (types.Challenge "ticket"), self') ∧
    (∀ extra,
        onAuthenticate ticket extra self'
          = (Ok (types.Accept (types.authid details) authrole
                   "ticket" "userdb"), self')) ∧
    (∀ signature extra,
        signature ≠ ticket →
        onAuthenticate signature extra self' = (Ok (types.Deny None), self')).
Proof.
  intros Hget Hne Hl. eexists.
  rewrite onHello_truthy; [|by rewrite Hget; apply truthy_Some|done].
  rewrite Hget. cbn [default from_option id fst snd].
  split; [done|]. split.
  - intros extra. rewrite onAuthenticate_run. cbn.
    by rewrite bool_decide_eq_true_2.
  - intros signature extra Hsig. rewrite onAuthenticate_run. cbn.
    rewrite bool_decide_eq_false_2; [done|]. congruence.
Qed.

Lemma handshake_known_user_witness :
  ∃ self',
    onHello "realm1" (types.mkHelloDetails (Some ["wampcra"; "ticket"]) "joe")
      main_session = (Ok (types.Challenge "ticket"), self') ∧
    onAuthenticate "magic_secret_2" ∅ self'
      = (Ok (types.Accept "joe" (Some "user") "ticket" "userdb"), self').
Proof.
  destruct (handshake_known_user main_session "realm1"
              (types.mkHelloDetails (Some ["wampcra"; "ticket"]) "joe")
              "magic_secret_2" (Some "user"))
    as (self' & Hrun & Hacc & _).
  - vm_compute; reflexivity.
  - discriminate.
  - apply (bool_decide_unpack _). vm_compute. exact I.
  - exists self'. split; [exact Hrun|]. apply Hacc.
Defined.

(** ** Sequences of messages *)

Lemma on_messages_cons m ms (self : MyRouterSession.t) :
  on_messages (m :: ms) self =
    ((on_message m self).1 :: (on_messages ms (on_message m self).2).1,
     (on_messages ms (on_message m self).2).2).
Proof.
  cbn [on_messages]. destruct (on_message m self) as [r self1]. cbn [fst snd].
  by destruct (on_messages ms self1) as [rs self2].
Qed.

(** [onHello] leaves a session whose pending record agrees with the user
    database, whatever the session was. *)
Lemma onHello_pending_consistent realm details (self : MyRouterSession.t) :
  pending_consistent (onHello realm details self).2.
Proof.
  destruct (onHello_cases realm details self)
    as [(_ & Ht & Hrun)|(_ & calls & Hrun)]; rewrite Hrun; [|done].
  unfold pending_consistent. cbn.
  split; [|done]. rewrite (truthy_default_lookup _ _ Ht).
  by destruct (default _ _).
Qed.

(** From a session whose pending record, if any, agrees with the user
    database, any sequence of messages gives one outcome for each message,
    with the user database untouched and the agreement kept.
    An [Accept] answers an [Authenticate] whose signature is the non-empty
    ticket stored for the accepted authid, and that authid is the one of the
    pending record at the start or of an earlier [Hello] offering "ticket".
    An exception is the [AttributeError] of an [Authenticate] that reaches a
    session which never had [_pending_auth] assigned, before any [Hello]. *)
Lemma on_messages_sound ms :
  ∀ self : MyRouterSession.t,
    pending_consistent self →
    ∃ rs self',
      on_messages ms self = (rs, self') ∧
      length rs = length ms ∧
      factory_userdb self' = factory_userdb self ∧
      pending_consistent self' ∧
      (∀ i authid authrole authmethod authprovider,
        rs !! i
          = Some (Ok (types.Accept authid authrole authmethod authprovider)) →
        (∃ signature extra,
            ms !! i = Some (Authenticate signature extra) ∧
            signature ≠ "" ∧
            UserDb._tickets (factory_userdb self) !! authid
              = Some (Some signature, authrole)) ∧
        authmethod = "ticket" ∧ authprovider = "userdb" ∧
        ((∃ pending, _pending_auth self = Assigned (Some pending) ∧
                     PendingAuth.authid pending = authid) ∨
         (∃ j realm details,
             j < i ∧ ms !! j = Some (Hello realm details) ∧
             types.authid details = authid ∧
             "ticket" ∈ default [] (types.authmethods details)))) ∧
      (∀ i e,
        rs !! i = Some (Raise e) →
        e = AttributeError "_pending_auth" ∧
        _pending_auth self = Unassigned ∧
        (∃ signature extra, ms !! i = Some (Authenticate signature extra)) ∧
        (∀ j realm details, j < i → ms !! j ≠ Some (Hello realm details))).
Proof.
  induction ms as [|m ms IH]; intros self Hinv.
  - exists [], self. by repeat split.
  - rewrite on_messages_cons. destruct m as [realm details|signature extra].
    + (* Hello *)
      cbn [on_message].
      pose proof (onHello_pending_consistent realm details self) as Hinv1.
      destruct (onHello_cases realm details self)
        as [(Hl & Ht & Hrun)|(_ & calls & Hrun)]; rewrite Hrun in Hinv1 |- *;
        cbn [fst snd] in Hinv1 |- *;
        destruct (IH _ Hinv1)
          as (rs & self' & Hms & Hlen & Hdb & Hinv' & Hacc & Hexn);
        rewrite Hms; eexists _, self'; cbn [fst snd];
        (split; [done|]); (split; [by cbn; rewrite Hlen|]);
        (split; [done|]); (split; [done|]);
        (split;
         [|by intros [|i] e Hi; [|destruct (Hexn i e Hi) as (_ & ? & _)]]);
        intros [|i] a r am ap Hi; try done; cbn in Hi;
        destruct (Hacc i a r am ap Hi)
          as ((sig & ex & Hmsg & Hne & Hget) & -> & -> & Hfrom);
        (split; [by exists sig, ex|]); (split; [done|]); (split; [done|]);
        right.
      * destruct Hfrom as [(pending & [= <-] & <-)|(j & r' & d' & ? & ? & ? & ?)].
        -- exists 0, realm, details. repeat split; [lia|done..].
        -- exists (S j), r', d'. repeat split; [lia|done..].
      * destruct Hfrom as [(pending & ? & _)|(j & r' & d' & ? & ? & ? & ?)];
          [done|].
        exists (S j), r', d'. repeat split; [lia|done..].
    + (* Authenticate *)
      cbn [on_message]. rewrite onAuthenticate_run. cbn [fst snd].
      destruct (IH _ Hinv)
        as (rs & self' & Hms & Hlen & Hdb & Hinv' & Hacc & Hexn).
      rewrite Hms. eexists _, self'. cbn [fst snd].
      split; [done|]. split; [by cbn; rewrite Hlen|].
      split; [done|]. split; [done|]. split.
      * intros [|i] a r am ap Hi.
        -- cbn in Hi. injection Hi as Hi. unfold pending_consistent in Hinv.
           destruct (_pending_auth self) as [|[pending|]]; [done| |done].
           destruct Hinv as (Hget & Ht & Hm & Hp).
           case_bool_decide as Hsig; [|done]. injection Hi as <- <- <- <-.
           rewrite <- Hsig in Hget, Ht. apply truthy_Some in Ht.
           split; [by exists signature, extra|].
           split; [done|]. split; [done|]. left. by exists pending.
        -- cbn in Hi.
           destruct (Hacc i a r am ap Hi)
             as ((sig & ex & Hmsg & Hne & Hget) & -> & -> & Hfrom).
           split; [by exists sig, ex|]. split; [done|]. split; [done|].
           destruct Hfrom as [?|(j & r' & d' & ? & ? & ? & ?)]; [by left|].
           right. exists (S j), r', d'. repeat split; [lia|done..].
      * intros [|i] e Hi.
        -- cbn in Hi. injection Hi as Hi.
           destruct (_pending_auth self) as [|[pending|]]; [|done..].
           injection Hi as <-. split; [done|]. split; [done|].
           split; [by exists signature, extra|]. intros j ? ? Hj. lia.
        -- cbn in Hi. destruct (Hexn i e Hi) as (-> & Hun & Hmsg & Hno).
           split; [done|]. split; [done|]. split; [done|].
           intros [|j] r' d' Hj; [done|]. cbn. apply Hno. lia.
Qed.

(** X5: a session that is new or holds no pending record gives, for any
    sequence of hello and authenticate messages, one outcome for each
    message and leaves the user database untouched. Whenever an outcome is
    an [Accept], the message it answers is an authenticate whose signature
    is non-empty and is the ticket stored for the accepted authid, and the
    [Accept] carries the stored role, "ticket" and "userdb". Whenever an
    outcome is an exception, it is the [AttributeError] for [_pending_auth],
    the session was new, the message is an authenticate, and no hello came
    before it. *)
Theorem accept_only_for_stored_ticket (self : MyRouterSession.t) ms :
  _pending_auth self = Unassigned ∨ _pending_auth self = Assigned None →
  ∃ rs self',
    on_messages ms self = (rs, self') ∧
    length rs = length ms ∧
    factory_userdb self' = factory_userdb self ∧
    (∀ i authid authrole authmethod authprovider,
      rs !! i
        = Some (Ok (types.Accept authid authrole authmethod authprovider)) →
      ∃ signature extra,
        ms !! i = Some (Authenticate signature extra) ∧
        signature ≠ "" ∧
        UserDb._tickets (factory_userdb self) !! authid
          = Some (Some signature, authrole) ∧
        authmethod = "ticket" ∧ authprovider = "userdb") ∧
    (∀ i e,
      rs !! i = Some (Raise e) →
      e = AttributeError "_pending_auth" ∧
      _pending_auth self = Unassigned ∧
      (∃ signature extra, ms !! i = Some (Authenticate signature extra)) ∧
      (∀ j realm details, j < i → ms !! j ≠ Some (Hello realm details))).
Proof.
  intros Hnone.
  destruct (on_messages_sound ms self)
    as (rs & self' & Hrun & Hlen & Hdb & _ & Hacc & Hexn).
  { unfold pending_consistent. by destruct Hnone as [-> | ->]. }
  exists rs, self'. split; [done|]. split; [done|]. split; [done|].
  split; [|done]. intros i a r am ap Hi.
  destruct (Hacc i a r am ap Hi) as ((sig & ex & ? & ? & ?) & ? & ? & _).
  by exists sig, ex.
Qed.

Lemma accept_only_for_stored_ticket_witness :
  (_pending_auth main_session = Unassigned ∨
   _pending_auth main_session = Assigned None) ∧
  ∃ rs self',
    on_messages
      [Authenticate "magic_secret_1" ∅;
       Hello "realm1" (ticket_hello "peter");
       Authenticate "" ∅;
       Authenticate "magic_secret_1" ∅]
      main_session = (rs, self') ∧
    length rs = 4.
Proof.
  assert (Hnew : _pending_auth main_session = Unassigned ∨
                 _pending_auth main_session = Assigned None)
    by (left; reflexivity).
  split; [exact Hnew|].
  destruct (accept_only_for_stored_ticket main_session
              [Authenticate "magic_secret_1" ∅;
               Hello "realm1" (ticket_hello "peter");
               Authenticate "" ∅;
               Authenticate "magic_secret_1" ∅] Hnew)
    as (rs & self' & Hrun & Hlen & _).
  by exists rs, self'.
Defined.

(** X6: in any sequence of messages to a session that is new or holds no
    pending record, an [Accept] for an authid is preceded by a hello for
    that same authid which offered "ticket"; this holds also when
    authenticates reach the new session first and raise. *)
Theorem accept_only_after_hello (self : MyRouterSession.t) ms rs self' :
  _pending_auth self = Unassigned ∨ _pending_auth self = Assigned None →
  on_messages ms self = (rs, self') →
  ∀ i authid authrole authmethod authprovider,
    rs !! i
      = Some (Ok (types.Accept authid authrole authmethod authprovider)) →
    ∃ j realm details,
      j < i ∧ ms !! j = Some (Hello realm details) ∧
      types.authid details = authid ∧
      "ticket" ∈ default [] (types.authmethods details).
Proof.
  intros Hnone Hrun i a r am ap Hi.
  destruct (on_messages_sound ms self)
    as (rs0 & self0 & Hrun0 & _ & _ & _ & Hacc & _).
  { unfold pending_consistent. by destruct Hnone as [-> | ->]. }
  rewrite Hrun in Hrun0. injection Hrun0 as <- <-.
  destruct (Hacc i a r am ap Hi) as (_ & _ & _ & [(p & Hp & _)|Hfrom]);
    [destruct Hnone; congruence|done].
Qed.

Lemma accept_only_after_hello_witness :
  (on_messages
     [Authenticate "magic_secret_1" ∅;
      Hello "realm1" (ticket_hello "peter");
      Authenticate "magic_secret_1" ∅] main_session).1
  = [Raise (AttributeError "_pending_auth");
     Ok (types.Challenge "ticket");
     Ok (types.Accept "peter" (Some "user") "ticket" "userdb")] ∧
  ∃ j realm details,
    j < 2 ∧
    [Authenticate "magic_secret_1" ∅;
     Hello "realm1" (ticket_hello "peter");
     Authenticate "magic_secret_1" ∅] !! j = Some (Hello realm details) ∧
    types.authid details = "peter" ∧
    "ticket" ∈ default [] (types.authmethods details).
Proof.
  split; [vm_compute; reflexivity|].
  refine (accept_only_after_hello main_session
            [Authenticate "magic_secret_1" ∅;
             Hello "realm1" (ticket_hello "peter");
             Authenticate "magic_secret_1" ∅]
            _ _ (or_introl eq_refl) eq_refl
            2 "peter" (Some "user") "ticket" "userdb" _).
  vm_compute; reflexivity.
Defined.

(** X7: of two hellos in a row the second alone counts: the decision, the
    pending record and the user database after both are those of the second
    hello made on its own. *)
Theorem second_hello_wins
    (self : MyRouterSession.t) realm1 details1 realm2 details2 :
  ∃ d self12 self2,
    (onHello realm1 details1;; onHello realm2 details2) self = (Ok d, self12) ∧
    onHello realm2 details2 self = (Ok d, self2) ∧
    _pending_auth self12 = _pending_auth self2 ∧
    factory_userdb self12 = factory_userdb self2.
Proof.
  unfold mbind at 1, Py_bind at 1.
  destruct (onHello_outcome realm1 details1 self)
    as (d1 & self1 & Hrun1 & Hdb1 & _). rewrite Hrun1.
  destruct (onHello_cases realm2 details2 self1)
    as [(Hl & Ht & Hrun)|([Hno|Hf] & calls & Hrun)]; rewrite Hrun.
  - rewrite Hdb1 in Ht |- *. eexists _, _, _. split; [done|].
    by rewrite (onHello_truthy _ _ _ Ht Hl).
  - eexists _, _, _. split; [done|]. rewrite onHello_no_ticket.
    + by rewrite Hdb1.
    + intros l Heq. by rewrite Heq in Hno.
  - rewrite Hdb1 in Hf |- *. eexists _, _, _. split; [done|].
    by rewrite (onHello_falsy _ _ _ Hf).
Qed.

(** X8: the pending record keeps the ticket and the role read at the hello.
    When the entry of the authid is overwritten by [add] after the
    [Challenge], authenticating with the ticket stored at the time of the
    hello is still accepted, with the role stored then, and every other
    signature, the new ticket included, is denied. *)
Theorem pending_keeps_ticket_of_hello
    (self : MyRouterSession.t) realm details ticket authrole
    new_authrole new_ticket :
  UserDb._tickets (factory_userdb self) !! types.authid details
    = Some (Some ticket, authrole) →
  ticket ≠ "" →
  "ticket" ∈ default [] (types.authmethods details) →
  ∃ self1 self2,
    onHello realm details self = (Ok (types.Challenge "ticket"), self1) ∧
    on_userdb (UserDb.add (types.authid details) new_authrole new_ticket) self1
      = (Ok (new_ticket, new_authrole), self2) ∧
    UserDb._tickets (factory_userdb self2) !! types.authid details
      = Some (new_ticket, new_authrole) ∧
    (∀ extra,
        onAuthenticate ticket extra self2
          = (Ok (types.Accept (types.authid details) authrole
                   "ticket" "userdb"), self2)) ∧
    (∀ signature extra,
        signature ≠ ticket →
        onAuthenticate signature extra self2 = (Ok (types.Deny None), self2)).
Proof.
  intros Hget Hne Hl. eexists _, _.
  rewrite onHello_truthy; [|by rewrite Hget; apply truthy_Some|done].
  rewrite Hget. cbn [default from_option id fst snd].
  unfold on_userdb. cbn [factory_userdb _pending_auth get_calls].
  rewrite UserDb_add_run.
  split; [done|]. split; [done|]. split; [apply lookup_insert_eq|]. split.
  - intros extra. rewrite onAuthenticate_run. cbn.
    by rewrite bool_decide_eq_true_2.
  - intros signature extra Hsig. rewrite onAuthenticate_run. cbn.
    rewrite bool_decide_eq_false_2; [done|]. congruence.
Qed.

Lemma pending_keeps_ticket_of_hello_witness :
  ∃ self1 self2,
    onHello "realm1" (ticket_hello "peter") main_session
      = (Ok (types.Challenge "ticket"), self1) ∧
    on_userdb (UserDb.add "peter" (Some "admin") (Some "new_secret")) self1
      = (Ok (Some "new_secret", Some "admin"), self2) ∧
    onAuthenticate "new_secret" ∅ self2 = (Ok (types.Deny None), self2) ∧
    onAuthenticate "magic_secret_1" ∅ self2
      = (Ok (types.Accept "peter" (Some "user") "ticket" "userdb"), self2).
Proof.
  destruct (pending_keeps_ticket_of_hello main_session "realm1"
              (ticket_hello "peter") "magic_secret_1" (Some "user")
              (Some "admin") (Some "new_secret"))
    as (self1 & self2 & Hrun & Hadd & _ & Hacc & Hdeny).
  - vm_compute; reflexivity.
  - discriminate.
  - apply (bool_decide_unpack _). vm_compute. exact I.
  - exists self1, self2. split; [exact Hrun|]. split; [exact Hadd|].
    split; [apply Hdeny; discriminate|apply Hacc].
Defined.

(** ** More on the user database *)

(** X9: [add] composes as writes to one key do. Adding the same entry twice
    is the same as adding it once; of two adds for one authid only the
    second is left in the database; adds for two different authids leave the
    same database in either order. *)
Theorem UserDb_add_compose
    (db : UserDb.t) authid authrole ticket authrole2 ticket2 other :
  other ≠ authid →
  (UserDb.add authid authrole ticket;; UserDb.add authid authrole ticket) db
    = UserDb.add authid authrole ticket db ∧
  (UserDb.add authid authrole ticket;; UserDb.add authid authrole2 ticket2) db
    = UserDb.add authid authrole2 ticket2 db ∧
  ((UserDb.add authid authrole ticket;;
    UserDb.add other authrole2 ticket2) db).2
    = ((UserDb.add other authrole2 ticket2;;
        UserDb.add authid authrole ticket) db).2.
Proof.
  intros Hne. unfold mbind, Py_bind.
  rewrite (UserDb_add_run authid authrole ticket db),
    (UserDb_add_run other authrole2 ticket2 db).
  rewrite !UserDb_add_run. cbn [UserDb._tickets snd].
  rewrite !insert_insert_eq. split; [done|]. split; [done|].
  f_equal. by apply insert_insert_ne.
Qed.

Lemma UserDb_add_compose_witness :
  "joe" ≠ "peter" ∧
  ((UserDb.add "peter" (Some "user") (Some "magic_secret_1");;
    UserDb.add "joe" (Some "user") (Some "magic_secret_2")) UserDb.__init__).2
  = ((UserDb.add "joe" (Some "user") (Some "magic_secret_2");;
      UserDb.add "peter" (Some "user") (Some "magic_secret_1"))
       UserDb.__init__).2.
Proof.
  assert (Hne : "joe" ≠ "peter") by discriminate.
  split; [exact Hne|].
  exact (proj2 (proj2
    (UserDb_add_compose UserDb.__init__ "peter" (Some "user")
       (Some "magic_secret_1") (Some "user") (Some "magic_secret_2")
       "joe" Hne))).
Defined.

Lemma add_all_app entries1 entries2 (db : UserDb.t) :
  add_all (entries1 ++ entries2) db =
    (add_all entries1;; add_all entries2) db.
Proof.
  revert db. induction entries1 as [|[[authid authrole] ticket] rest IH];
    intros db; [done|].
  cbn [app add_all]. unfold mbind, Py_bind in *.
  rewrite (UserDb_add_run authid authrole ticket db). apply IH.
Qed.

Lemma add_all_ok entries (db : UserDb.t) : (add_all entries db).1 = Ok ().
Proof.
  revert db. induction entries as [|[[authid authrole] ticket] rest IH];
    intros db; [done|].
  cbn [add_all]. unfold mbind, Py_bind.
  rewrite (UserDb_add_run authid authrole ticket db). apply IH.
Qed.

Lemma add_all_lookup entries (db : UserDb.t) authid :
  UserDb._tickets (add_all entries db).2 !! authid =
    match last (filter (λ e, e.1.1 = authid) entries) with
    | Some (_, authrole, ticket) => Some (ticket, authrole)
    | None => UserDb._tickets db !! authid
    end.
Proof.
  induction entries as [|[[authid' authrole] ticket] entries IH] using rev_ind;
    [done|].
  rewrite add_all_app. unfold mbind at 1, Py_bind at 1.
  pose proof (add_all_ok entries db) as Hok.
  destruct (add_all entries db) as [r db1]. cbn [fst snd] in *. subst r.
  cbn [add_all]. unfold mbind, Py_bind.
  rewrite (UserDb_add_run authid' authrole ticket db1).
  cbn [mret Py_ret snd UserDb._tickets]. rewrite filter_app.
  destruct (decide (authid' = authid)) as [->|Hne].
  - rewrite filter_cons_True by done. rewrite filter_nil, last_snoc.
    apply lookup_insert_eq.
  - rewrite filter_cons_False by done. rewrite filter_nil, app_nil_r.
    by rewrite lookup_insert_ne.
Qed.

(** X10: a sequence of [add] calls raises nothing, and afterwards [get] for
    an authid returns the ticket and the role of the last entry of the
    sequence that names this authid; when no entry names it, [get] returns
    what it returned before. *)
Theorem add_all_then_get entries (db : UserDb.t) authid :
  (add_all entries db).1 = Ok () ∧
  (UserDb.get authid (add_all entries db).2).1 =
    match last (filter (λ e, e.1.1 = authid) entries) with
    | Some (_, authrole, ticket) => Ok (succeed (ticket, authrole))
    | None => (UserDb.get authid db).1
    end.
Proof.
  split; [apply add_all_ok|].
  rewrite !UserDb_get_run. cbn [fst]. rewrite add_all_lookup.
  by destruct (last _) as [[[? authrole] ticket]|].
Qed.

(** ** The wrapped protocol *)

Lemma dataReceived_all_run chunks (self : HelloServerProtocol.t) :
  HelloServerProtocol.dataReceived_all chunks self =
    (Ok (),
     HelloServerProtocol.mk (HelloServerProtocol.transport self)
       (HelloServerProtocol.stdout self
          ++ ((λ data, "dataReceived: " +:+ data) <$> chunks))).
Proof.
  revert self. induction chunks as [|data rest IH]; intros self.
  - destruct self. cbn. by rewrite app_nil_r.
  - cbn [HelloServerProtocol.dataReceived_all]. unfold mbind, Py_bind.
    unfold HelloServerProtocol.dataReceived at 1,
      HelloServerProtocol.print at 1, modify at 1.
    rewrite IH. cbn. by rewrite <- (assoc_L (++)).
Qed.

(** X11: a connection that is made and then receives any chunks raises
    nothing; it writes to its transport the one string "how are you?" and
    nothing for the chunks; it prints "connectionMade" and then one line for
    each chunk, in the order received, the chunk after "dataReceived: ". *)
Theorem connection_run chunks (self : HelloServerProtocol.t) :
  HelloServerProtocol.connection chunks self =
    (Ok (),
     HelloServerProtocol.mk
       (HelloServerProtocol.transport self ++ ["how are you?"])
       (HelloServerProtocol.stdout self
          ++ "connectionMade"
             :: ((λ data, "dataReceived: " +:+ data) <$> chunks))).
Proof.
  unfold HelloServerProtocol.connection, mbind, Py_bind.
  unfold HelloServerProtocol.connectionMade, mbind, Py_bind,
    HelloServerProtocol.print, HelloServerProtocol.transport_write, modify.
  rewrite dataReceived_all_run. cbn. by rewrite <- (assoc_L (++)).
Qed.

(** ** [onAuthenticate] once [onHello] has run *)

(** X13: on a session that has [_pending_auth] assigned, as every session
    has once [onHello] has run on it, [onAuthenticate] returns a decision and
    leaves the session as it is. The decision is an [Accept] if and only if
    a pending record is there and the signature equals its expected secret;
    that [Accept] carries the authid, role, method and provider of the
    pending record; in every other case the decision is [Deny]. *)
Theorem onAuthenticate_accept_iff
    (self : MyRouterSession.t) pending_auth signature extra :
  _pending_auth self = Assigned pending_auth →
  ∃ d,
    onAuthenticate signature extra self = (Ok d, self) ∧
    ((∃ authid authrole authmethod authprovider,
        d = types.Accept authid authrole authmethod authprovider) ↔
     (∃ pending, pending_auth = Some pending ∧
                 PendingAuth.signature pending = Some signature)) ∧
    (∀ pending,
        pending_auth = Some pending →
        PendingAuth.signature pending = Some signature →
        d = types.Accept (PendingAuth.authid pending)
              (PendingAuth.authrole pending)
              (PendingAuth.authmethod pending)
              (PendingAuth.authprovider pending)) ∧
    ((pending_auth = None ∨
      ∃ pending, pending_auth = Some pending ∧
                 PendingAuth.signature pending ≠ Some signature) →
     d = types.Deny None).
Proof.
  intros Hset. rewrite onAuthenticate_run, Hset.
  destruct pending_auth as [pending|]; [case_bool_decide as Hs|];
    eexists; (split; [reflexivity|]).
  - split; [split|split].
    + intros _. by exists pending.
    + eauto.
    + by intros p [= <-] _.
    + intros [|(p & [= <-] & Hne)]; congruence.
  - split; [split|split].
    + by intros (? & ? & ? & ? & ?).
    + intros (p & [= <-] & Heq). congruence.
    + intros p [= <-] Heq. congruence.
    + done.
  - split; [split|split].
    + by intros (? & ? & ? & ? & ?).
    + by intros (p & ? & _).
    + by intros p ?.
    + done.
Qed.

Lemma onAuthenticate_accept_iff_witness :
  ∃ d,
    onAuthenticate "magic_secret_1" ∅ challenged_session
      = (Ok d, challenged_session) ∧
    d = types.Accept "peter" (Some "user") "ticket" "userdb".
Proof.
  destruct (onAuthenticate_accept_iff challenged_session
              (Some (PendingAuth.__init__ (Some "magic_secret_1") "peter"
                       (Some "user") "ticket" "userdb"))
              "magic_secret_1" ∅) as (d & Hrun & _ & Hacc & _).
  - vm_compute; reflexivity.
  - exists d. split; [exact Hrun|].
    by apply (Hacc (PendingAuth.__init__ (Some "magic_secret_1") "peter"
                      (Some "user") "ticket" "userdb")).
Defined.
